(** * DeepSeek Code Companion: the chat orchestrator of [app.py]

    A shallow embedding of [src/app/app.py]: the connectivity probe run at
    import time, the prompt template, and the [ChatBot] class with its
    methods [generate_ai_response], [chat], [stop_generation] and
    [clear_chat].

    Python code that reads and writes process state is written in a small
    state-and-exception monad.  What lies outside the file (the Ollama
    server behind [ChatOllama], the HTTP endpoint behind [requests.get]) is
    a parameter: an instance of [Runnable], respectively a [Network]. *)

From Stdlib Require Import Ascii String QArith_base.
From stdpp Require Import base option list strings numbers pretty.

(** ** Exceptions and results *)

(** The exception classes the program distinguishes.  [RequestException] is
    the base class of what [requests] raises ([ConnectionError], [Timeout],
    [HTTPError], ...); [ValueError] and [OverflowError] are what [time.sleep]
    raises on a delay it refuses; [OtherException] stands for every other
    subclass of [Exception]. *)
Inductive ExceptionClass :=
| RequestException | ValueError | OverflowError | OtherException.

(** An exception object: its class and its [str(e)]. *)
Record Exception := mkException { exc_class : ExceptionClass; exc_str : string }.

Inductive Result (A : Type) : Type :=
| Ok (a : A)
| Raise (e : Exception).
Arguments Ok {A} a.
Arguments Raise {A} e.

(** ** The monad: a computation reads and writes a state of type [S], and
    either returns a value or raises. *)
Definition M (S A : Type) : Type := S → Result A * S.

#[global] Instance M_ret {S} : MRet (M S) := λ A a s, (Ok a, s).
#[global] Instance M_bind {S} : MBind (M S) := λ A B k m s,
  match m s with
  | (Ok a, s') => k a s'
  | (Raise e, s') => (Raise e, s')
  end.

Definition raise {S A} (e : Exception) : M S A := λ s, (Raise e, s).
Definition gets {S A} (f : S → A) : M S A := λ s, (Ok (f s), s).
Definition modify {S} (f : S → S) : M S unit := λ s, (Ok tt, f s).

(** [try: body except C as e: handler e], where [catches e] says whether
    [e] is an instance of [C].  An exception that is not caught, or that the
    handler raises, propagates. *)
Definition try_except {S A} (body : M S A) (catches : Exception → bool)
    (handler : Exception → M S A) : M S A := λ s,
  match body s with
  | (Ok a, s') => (Ok a, s')
  | (Raise e, s') => if catches e then handler e s' else (Raise e, s')
  end.

(** [except Exception]: every exception of the model. *)
Definition isinstance_Exception (e : Exception) : bool := true.

(** [except requests.exceptions.RequestException]. *)
Definition isinstance_RequestException (e : Exception) : bool :=
  match exc_class e with
  | RequestException => true
  | _ => false
  end.

(** ** Logging: [logging.basicConfig(level=logging.INFO, ...)] *)

Inductive Level := DEBUG | INFO | WARNING | ERROR.

Definition levelno (l : Level) : Z :=
  match l with DEBUG => 10 | INFO => 20 | WARNING => 30 | ERROR => 40 end%Z.

Definition root_level : Level := INFO.

(** A record reaches the handler when its level is at least the root
    logger's; the log keeps level and message. *)
Definition emit (l : Level) (msg : string) (log : list (Level * string))
    : list (Level * string) :=
  if (levelno root_level <=? levelno l)%Z then log ++ [(l, msg)] else log.

(** ** Truthiness and [or] on strings *)

Definition truthy (s : string) : bool :=
  match s with
  | EmptyString => false
  | String _ _ => true
  end.

(** [a or b] on strings. *)
Definition or_else (a b : string) : string := if truthy a then a else b.

(** ** Messages (langchain_core.messages) *)

Inductive BaseMessage :=
| SystemMessage (content : string)
| HumanMessage (content : string)
| AIMessage (content : string).

Definition content (m : BaseMessage) : string :=
  match m with
  | SystemMessage c | HumanMessage c | AIMessage c => c
  end.

#[global] Instance BaseMessage_eq_dec : EqDecision BaseMessage.
Proof. solve_decision. Defined.

(** ** Prompt templates (langchain_core.prompts) *)

(** What the dictionary given to [invoke] binds a name to. *)
Inductive Arg :=
| Text (s : string)
| Messages (ms : list BaseMessage).

Definition kwargs := list (string * Arg).

Fixpoint lookup_kw (name : string) (kw : kwargs) : option Arg :=
  match kw with
  | [] => None
  | (k, v) :: kw' => if String.eqb k name then Some v else lookup_kw name kw'
  end.

(** The value substituted for a replacement field.  Only text is
    substituted by the templates of this program; the [repr] of a message
    list is not modelled. *)
Definition field_value (name : string) (kw : kwargs) : option string :=
  match lookup_kw name kw with
  | Some (Text s) => Some s
  | _ => None
  end.

(** f-string formatting of a template with plain replacement fields
    [{name}] and the escapes [{{] and [}}].  [field] is [Some n] while the
    scan is inside a field whose name so far is [n].  [None] is a formatting
    error (a missing key, an unmatched brace). *)
Fixpoint format_from (template : string) (field : option string) (kw : kwargs)
    : option string :=
  match field with
  | None =>
      match template with
      | EmptyString => Some EmptyString
      | String "{"%char (String "{"%char rest) =>
          String "{"%char <$> format_from rest None kw
      | String "}"%char (String "}"%char rest) =>
          String "}"%char <$> format_from rest None kw
      | String "{"%char rest => format_from rest (Some EmptyString) kw
      | String "}"%char _ => None
      | String c rest => String c <$> format_from rest None kw
      end
  | Some name =>
      match template with
      | EmptyString => None
      | String "}"%char rest =>
          v ← field_value name kw;
          r ← format_from rest None kw;
          Some (v +:+ r)
      | String c rest => format_from rest (Some (name +:+ String c EmptyString)) kw
      end
  end.

Definition format (template : string) (kw : kwargs) : option string :=
  format_from template None kw.

(** The entries of a [ChatPromptTemplate]. *)
Inductive MessageLike :=
| SystemMessagePromptTemplate (template : string)
| HumanMessagePromptTemplate (template : string)
| AIMessagePromptTemplate (template : string)
| MessagesPlaceholder (variable_name : string).

Definition format_entry (entry : MessageLike) (kw : kwargs)
    : option (list BaseMessage) :=
  match entry with
  | SystemMessagePromptTemplate t => c ← format t kw; Some [SystemMessage c]
  | HumanMessagePromptTemplate t => c ← format t kw; Some [HumanMessage c]
  | AIMessagePromptTemplate t => c ← format t kw; Some [AIMessage c]
  | MessagesPlaceholder name =>
      match lookup_kw name kw with
      | Some (Messages ms) => Some ms
      | _ => None
      end
  end.

(** [ChatPromptTemplate.format_messages]: the entries in order, each
    placeholder replaced by the messages bound to it. *)
Fixpoint format_messages (entries : list MessageLike) (kw : kwargs)
    : option (list BaseMessage) :=
  match entries with
  | [] => Some []
  | entry :: entries' =>
      ms ← format_entry entry kw;
      rest ← format_messages entries' kw;
      Some (ms ++ rest)
  end.

(** The line feed of the triple-quoted literal. *)
Definition LF : string := String (Ascii.ascii_of_nat 10) EmptyString.

Definition SYSTEM_TEMPLATE : string :=
  "You are an expert AI coding assistant. Provide concise, correct solutions "
  +:+ LF +:+
  "with strategic print statements for debugging. Always respond in English.".

Definition chat_prompt : list MessageLike :=
  [ SystemMessagePromptTemplate SYSTEM_TEMPLATE;
    MessagesPlaceholder "chat_history";
    HumanMessagePromptTemplate "{input}" ].

(** ** The model client *)

(** [ChatOllama(model=..., base_url=..., temperature=...)]: the client's
    configuration.  Constructing it contacts nothing. *)
Record ChatOllama := mkChatOllama {
  model : string;
  base_url : string;
  temperature : Q }.

Definition OLLAMA_API : string := "http://ollama:11434".

Definition get_llm_engine (model_name : string) : ChatOllama :=
  {| model := model_name; base_url := OLLAMA_API; temperature := (3 # 10)%Q |}.

(** What [generate_ai_response] needs of its [llm_engine]: it can be invoked
    on a prompt, and answers with a message or raises.  The answer may depend
    on the prompts the process has sent before ([sent]), so that an instance
    can stand for a server whose answers change from one call to the next. *)
Class Runnable (E : Type) :=
  invoke : E → ∀ (sent : list (list BaseMessage)) (prompt : list BaseMessage),
           Result BaseMessage.

(** [StrOutputParser()]: the text of the model's message. *)
Definition StrOutputParser (m : BaseMessage) : string := content m.

(** ** Process state *)

(** A reference to a list object holding a display history: Gradio hands
    [chat] the list kept in [history_state], and [history.append] updates
    that object in place. *)
Definition loc := nat.

(** The values the methods return. *)
#[local] Set Warnings "-register-all".
Inductive value :=
| VNone
| VStr (s : string)
| VList (l : loc)
| VTuple (vs : list value).

Record State := mkState {
  stop_flag : bool;                          (* the module's threading.Event *)
  chat_history : list BaseMessage;           (* self.chat_history *)
  heap : list (list (string * string));      (* the display-history lists *)
  invocations : list (list BaseMessage);     (* prompts sent to an engine *)
  requested : list string;                   (* URLs fetched by requests.get *)
  slept : list Z;                            (* delays passed to time.sleep *)
  log : list (Level * string) }.             (* records written by logging *)

Definition set_stop_flag (b : bool) (s : State) : State :=
  mkState b (chat_history s) (heap s) (invocations s) (requested s) (slept s) (log s).
Definition set_chat_history (h : list BaseMessage) (s : State) : State :=
  mkState (stop_flag s) h (heap s) (invocations s) (requested s) (slept s) (log s).
Definition set_heap (hp : list (list (string * string))) (s : State) : State :=
  mkState (stop_flag s) (chat_history s) hp (invocations s) (requested s) (slept s) (log s).
Definition set_invocations (i : list (list BaseMessage)) (s : State) : State :=
  mkState (stop_flag s) (chat_history s) (heap s) i (requested s) (slept s) (log s).
Definition set_requested (r : list string) (s : State) : State :=
  mkState (stop_flag s) (chat_history s) (heap s) (invocations s) r (slept s) (log s).
Definition set_slept (z : list Z) (s : State) : State :=
  mkState (stop_flag s) (chat_history s) (heap s) (invocations s) (requested s) z (log s).
Definition set_log (l : list (Level * string)) (s : State) : State :=
  mkState (stop_flag s) (chat_history s) (heap s) (invocations s) (requested s) (slept s) l.

Definition logging (l : Level) (msg : string) : M State unit :=
  modify (λ s, set_log (emit l msg (log s)) s).

(** [threading.Event]: [clear], [is_set], [set]. *)
Definition stop_flag_clear : M State unit := modify (set_stop_flag false).
Definition stop_flag_is_set : M State bool := gets stop_flag.
Definition stop_flag_set : M State unit := modify (set_stop_flag true).

(** ** The connectivity probe *)

Record Response := mkResponse { status_code : Z }.

(** The endpoint behind [requests.get]: given the URLs fetched so far and
    the URL asked for, a response, or the exception raised when none arrives
    within the timeout. *)
Definition Network := list string → string → Result Response.

(** [for i in range(n)] with a body that may [return]: the body yields
    [Some a] to return [a] from the function, [None] to go on. *)
Definition range (n : Z) : list Z := Z.of_nat <$> seq 0 (Z.to_nat n).

Fixpoint for_each {A} (indices : list Z) (body : Z → M State (option A))
    : M State (option A) :=
  match indices with
  | [] => mret None
  | i :: indices' =>
      r ← body i;
      match r with
      | Some a => mret (Some a)
      | None => for_each indices' body
      end
  end.

(** What [time.sleep(secs)] raises for an integer [secs], if anything.  The
    delay is first converted to nanoseconds in a signed 64-bit integer, an
    [OverflowError] when it does not fit; a negative delay is then a
    [ValueError]. *)
Definition sleep_error (secs : Z) : option Exception :=
  let nanoseconds := (secs * 1000000000)%Z in
  if ((nanoseconds <? -9223372036854775808)
      || (9223372036854775807 <? nanoseconds))%Z then
    Some (mkException OverflowError
            "timestamp too large to convert to C _PyTime_t")
  else if (secs <? 0)%Z then
    Some (mkException ValueError "sleep length must be non-negative")
  else None.

(** [time.sleep(secs)] *)
Definition time_sleep (secs : Z) : M State unit :=
  match sleep_error secs with
  | Some e => raise e
  | None => modify (λ s, set_slept (slept s ++ [secs]) s)
  end.

Inductive Startup := Exited (code : Z) | Serving.

Section Probe.
Variable network : Network.

(** [requests.get(url, timeout=5)] *)
Definition requests_get (url : string) : M State Response :=
  λ s, (network (requested s) url, set_requested (requested s ++ [url]) s).

(** [response.raise_for_status()]: an [HTTPError], a [RequestException],
    for a 4xx or 5xx status.  The text of its message is not modelled. *)
Definition raise_for_status (response : Response) : M State unit :=
  if ((400 <=? status_code response) && (status_code response <? 600))%Z then
    raise (mkException RequestException
             (pretty (status_code response) +:+ " Error"))
  else mret tt.

Definition test_ollama_connection (retries delay : Z) : M State bool :=
  r ← for_each (range retries) (λ i,
        try_except
          (response ← requests_get (OLLAMA_API +:+ "/api/tags");
           raise_for_status response ;;
           logging INFO "✅ Успешное подключение к Ollama" ;;
           mret (Some true))
          isinstance_RequestException
          (λ e,
           logging WARNING
             ("❌ Ошибка подключения (" +:+ pretty (i + 1)%Z +:+ "/"
              +:+ pretty retries +:+ "): " +:+ exc_str e) ;;
           time_sleep delay ;;
           mret None));
  match r with
  | Some b => mret b
  | None =>
      logging ERROR "🚨 Не удалось подключиться к Ollama после нескольких попыток" ;;
      mret false
  end.

(** The statements the module runs when it is imported (lines 40-44),
    with the defaults [retries=3, delay=3] of [test_ollama_connection]:
    [exit(1)] ends the process; otherwise the probe is called once more and
    its result dropped. *)
Definition module_body : M State (option Z) :=
  ok ← test_ollama_connection 3 3;
  if negb ok then mret (Some 1%Z)
  else
    test_ollama_connection 3 3 ;;
    mret None.
End Probe.

(** [self.chat_history.append(m)] *)
Definition chat_history_append (m : BaseMessage) : M State unit :=
  modify (λ s, set_chat_history (chat_history s ++ [m]) s).

(** [history.append(x)] on the list object at [history].  A Python reference
    always designates a live object; on a location outside the heap the
    model raises. *)
Definition list_append (history : loc) (x : string * string) : M State unit :=
  λ s, match heap s !! history with
       | Some h => (Ok tt, set_heap (<[history := h ++ [x]]> (heap s)) s)
       | None => (Raise (mkException OtherException "dangling reference"), s)
       end.

(** The list display [[]]: a new, empty list object. *)
Definition new_list : M State loc :=
  λ s, (Ok (length (heap s)), set_heap (heap s ++ [[]]) s).

(** ** The chain [chat_prompt | llm_engine | StrOutputParser()] *)

(** First stage: the template renders the prompt; a formatting error is
    raised as an exception. *)
Definition prompt_invoke (template : list MessageLike) (kw : kwargs)
    : M State (list BaseMessage) :=
  match format_messages template kw with
  | Some prompt => mret prompt
  | None => raise (mkException OtherException "KeyError")
  end.

(** Second stage: the engine is invoked on the prompt. *)
Definition llm_invoke `{Runnable E} (llm_engine : E) (prompt : list BaseMessage)
    : M State BaseMessage :=
  λ s, (invoke llm_engine (invocations s) prompt,
        set_invocations (invocations s ++ [prompt]) s).

Definition chain_invoke `{Runnable E} (llm_engine : E) (kw : kwargs)
    : M State string :=
  prompt ← prompt_invoke chat_prompt kw;
  answer ← llm_invoke llm_engine prompt;
  mret (StrOutputParser answer).

(** ** class ChatBot *)

Definition ChatBot__init__ : M State unit :=
  modify (set_chat_history
            [AIMessage "Hi! I'm DeepSeek. How can I help you code today? 💻"]).

Definition generate_ai_response `{Runnable E} (user_input : string) (llm_engine : E)
    : M State string :=
  stop_flag_clear ;;
  stopped ← stop_flag_is_set;
  if (stopped : bool) then
    logging WARNING "⛔ Генерация остановлена пользователем" ;;
    mret "⚠️ Остановлено пользователем"
  else
    logging INFO ("📝 Отправка запроса: " +:+ user_input) ;;
    chat_history_append (HumanMessage user_input) ;;
    response ←
      try_except
        (history ← gets chat_history;
         answer ← chain_invoke llm_engine
                    [("input", Text user_input); ("chat_history", Messages history)];
         mret (or_else answer "⚠️ Ошибка: модель не вернула ответ."))
        isinstance_Exception
        (λ e, logging ERROR ("❌ Ошибка генерации: " +:+ exc_str e) ;;
              mret "⚠️ Ошибка обработки запроса.");
    chat_history_append (AIMessage response) ;;
    logging INFO ("💡 Полный ответ от модели: " +:+ response) ;;
    mret response.

Definition chat `{Runnable ChatOllama} (message model_choice : string) (history : loc)
    : M State value :=
  if negb (truthy message) then
    mret (VTuple [VStr ""; VList history; VList history])
  else
    logging DEBUG ("📩 Входящее сообщение: " +:+ message) ;;
    logging DEBUG ("🔄 Выбранная модель: " +:+ model_choice) ;;
    let llm_engine := get_llm_engine model_choice in
    logging DEBUG "✅ LLM-движок успешно инициализирован" ;;
    ai_response ← generate_ai_response message llm_engine;
    list_append history (message, ai_response) ;;
    mret (VTuple [VStr ""; VList history; VList history]).

Definition stop_generation : M State value :=
  logging WARNING "⛔ Остановка генерации пользователем" ;;
  stop_flag_set ;;
  mret VNone.

Definition clear_chat : M State value :=
  logging INFO "🗑 Очистка истории чата" ;;
  modify (set_chat_history
            [AIMessage "Hi! I'm DeepSeek. How can I help you code today? 💻"]) ;;
  chatbot_value ← new_list;
  extra ← new_list;
  mret (VTuple [VList chatbot_value; VList extra]).

(** The program: the module body, then, under [__main__], [create_demo()]
    constructs the one [ChatBot] and [demo.launch] serves the interface. *)
Definition main (network : Network) : M State Startup :=
  status ← module_body network;
  match status with
  | Some code => mret (Exited code)
  | None => ChatBot__init__ ;; mret Serving
  end.

(** Gradio's queue over a sequence of submit events: each event calls
    [chatbot.chat] with its message, model choice and history list; the
    result, or the exception, goes to the browser and the process state
    carries over to the next event. *)
Fixpoint submit_events `{Runnable ChatOllama}
    (events : list (string * string * loc)) (s : State) : State :=
  match events with
  | [] => s
  | (message, model_choice, history) :: events' =>
      submit_events events' (chat message model_choice history s).2
  end.

(** ** What the theorems are stated with *)

(** The text [generate_ai_response] makes of the engine's outcome. *)
Definition response_of (outcome : Result BaseMessage) : string :=
  match outcome with
  | Ok answer => or_else (content answer) "⚠️ Ошибка: модель не вернула ответ."
  | Raise _ => "⚠️ Ошибка обработки запроса."
  end.

(** The records [generate_ai_response] logs. *)
Definition records_of (user_input : string) (outcome : Result BaseMessage)
    : list (Level * string) :=
  [(INFO, "📝 Отправка запроса: " +:+ user_input)]
  ++ match outcome with
     | Ok _ => []
     | Raise e => [(ERROR, "❌ Ошибка генерации: " +:+ exc_str e)]
     end
  ++ [(INFO, "💡 Полный ответ от модели: " +:+ response_of outcome)].

(** The prompt [generate_ai_response] sends: the human turn is appended to
    the history before the template is rendered over it. *)
Definition prompt_sent (history : list BaseMessage) (user_input : string)
    : list BaseMessage :=
  SystemMessage SYSTEM_TEMPLATE
    :: (history ++ [HumanMessage user_input]) ++ [HumanMessage user_input].

(** The turns one exchange adds to the conversation. *)
Definition exchange (message reply : string) : list BaseMessage :=
  [HumanMessage message; AIMessage reply].

(** The URL the probe fetches. *)
Definition health_url : string := OLLAMA_API +:+ "/api/tags".

(** One pass through the body of the loop of [test_ollama_connection], for
    the index [i]. *)
Definition attempt (network : Network) (retries delay i : Z)
    : M State (option bool) :=
  try_except
    (response ← requests_get network health_url;
     raise_for_status response ;;
     logging INFO "✅ Успешное подключение к Ollama" ;;
     mret (Some true))
    isinstance_RequestException
    (λ e,
     logging WARNING
       ("❌ Ошибка подключения (" +:+ pretty (i + 1)%Z +:+ "/"
        +:+ pretty retries +:+ "): " +:+ exc_str e) ;;
     time_sleep delay ;;
     mret None).

(** The state after an attempt that failed and was caught. *)
Definition after_failure (retries delay i : Z) (e : Exception) (s : State) : State :=
  set_log
    (log s ++ [(WARNING, "❌ Ошибка подключения (" +:+ pretty (i + 1)%Z +:+ "/"
                         +:+ pretty retries +:+ "): " +:+ exc_str e)])
    (set_requested (requested s ++ [health_url]) s).

(** The part of the state the chat works on, as opposed to the records of
    the probe and the log. *)
Definition chat_state (s : State)
    : bool * list BaseMessage * list (list (string * string))
      * list (list BaseMessage) :=
  (stop_flag s, chat_history s, heap s, invocations s).

(** What one GET amounts to for the probe: the endpoint was reached (a
    response whose status is not 4xx or 5xx); the attempt failed with an
    exception the loop catches (a [RequestException] raised by [requests.get],
    or the [HTTPError] of [raise_for_status]); or another exception, which the
    loop does not catch. *)
Inductive Attempt := Reached | Failed (e : Exception) | Crashed (e : Exception).

Definition classify (r : Result Response) : Attempt :=
  match r with
  | Ok response =>
      if ((400 <=? status_code response) && (status_code response <? 600))%Z
      then Failed (mkException RequestException
                     (pretty (status_code response) +:+ " Error"))
      else Reached
  | Raise e => if isinstance_RequestException e then Failed e else Crashed e
  end.

(** The conversation and the display list at [history] tell the same
    story: the greeting, then one exchange per pair of the list. *)
Definition in_sync (history : loc) (s : State) : Prop :=
  ∃ pairs,
    heap s !! history = Some pairs
    ∧ chat_history s
      = AIMessage "Hi! I'm DeepSeek. How can I help you code today? 💻"
        :: concat ((λ pair, exchange pair.1 pair.2) <$> pairs).

(** ** The event bindings of [create_demo] *)

Inductive Component :=
| msg | chatbot_component | model_dropdown | history_state | stop_btn | clear_btn.

Inductive Method := method_chat | method_stop_generation | method_clear_chat.

(** [trigger.submit(fn=..., inputs=..., outputs=...)], and the same for
    [click]. *)
Record Binding := mkBinding {
  trigger : Component;
  fn : Method;
  inputs : list Component;
  outputs : list Component }.

Definition create_demo_bindings : list Binding :=
  [ mkBinding msg method_chat [msg; model_dropdown; history_state]
      [msg; chatbot_component];
    mkBinding stop_btn method_stop_generation [] [];
    mkBinding clear_btn method_clear_chat [] [chatbot_component] ].

(** What a method bound in [create_demo] returns, run on a state. *)
Definition run_method `{Runnable ChatOllama} (m : Method)
    (message model_choice : string) (history : loc) : M State value :=
  match m with
  | method_chat => chat message model_choice history
  | method_stop_generation => stop_generation
  | method_clear_chat => clear_chat
  end.

(** How many output values a returned value stands for: none for [None],
    the components of a tuple, one otherwise. *)
Definition returned_count (v : value) : nat :=
  match v with
  | VNone => 0
  | VTuple vs => length vs
  | _ => 1
  end.


(** ** Simulated collaborators and concrete states *)

Module Simulated.
(** A server that answers every prompt with the same text. *)
Definition answering (text : string) : Runnable ChatOllama :=
  λ _ _ _, Ok (AIMessage text).

(** An engine that raises on every invocation. *)
Definition raising : Runnable unit :=
  λ _ _ _, Raise (mkException OtherException "connection refused").

(** An engine whose answer is always the empty text. *)
Definition silent : Runnable unit :=
  λ _ _ _, Ok (AIMessage "").

(** A backend whose health endpoint answers 200 to every GET. *)
Definition reachable : Network := λ _ _, Ok (mkResponse 200).

(** A backend that refuses every connection. *)
Definition unreachable : Network :=
  λ _ _, Raise (mkException RequestException "Connection refused").

(** A backend whose health endpoint answers 503 to every GET. *)
Definition unavailable : Network := λ _ _, Ok (mkResponse 503).


(** A backend that answers the first GET of the process with 200 and
    refuses every later one. *)
Definition vanishing : Network :=
  λ fetched _,
    match fetched with
    | [] => Ok (mkResponse 200)
    | _ => Raise (mkException RequestException "Connection refused")
    end.

(** A [requests.get] that fails with an exception outside [requests]. *)
Definition crashing : Network :=
  λ _ _, Raise (mkException OtherException "out of memory").

(** The process as it starts: flag clear, nothing sent, nothing logged. *)
Definition process_start : State := mkState false [] [] [] [] [] [].

(** The process once [create_demo] has run: the seeded [ChatBot], and
    at location 0 the empty list of [history_state]. *)
Definition session : State :=
  mkState false
    [AIMessage "Hi! I'm DeepSeek. How can I help you code today? 💻"]
    [[]] [] [] [] [].
End Simulated.

(** * Properties *)

(** Expose the state passing of a computation written with the monad. *)
Ltac step_monad :=
  unfold mbind, M_bind, mret, M_ret, try_except, raise, gets, modify.

(** ** The model at work on concrete inputs *)

Example format_escapes_and_fields :
  format "{{{who}}} says {what}" [("who", Text "bot"); ("what", Text "{hi}")]
  = Some "{bot} says {hi}".
Proof. reflexivity. Qed.

Example format_missing_key : format "{input}" [("question", Text "hi")] = None.
Proof. reflexivity. Qed.

(** The scenario of a first exchange: the value returned, the display list
    and the conversation. *)
Example first_exchange :
  let r := @chat (Simulated.answering "print('hello world')")
             "print hello world" "model-a" 0 Simulated.session in
  r.1 = Ok (VTuple [VStr ""; VList 0; VList 0])
  ∧ heap r.2 = [[("print hello world", "print('hello world')")]]
  ∧ chat_history r.2
    = [AIMessage "Hi! I'm DeepSeek. How can I help you code today? 💻";
       HumanMessage "print hello world";
       AIMessage "print('hello world')"].
Proof. repeat split; reflexivity. Qed.

(** A backend that cannot be reached: three attempts, three delays of three
    seconds, exit status 1. *)
Example startup_unreachable :
  let r := main Simulated.unreachable Simulated.process_start in
  r.1 = Ok (Exited 1)
  ∧ length (requested r.2) = 3
  ∧ slept r.2 = [3; 3; 3]%Z
  ∧ log r.2
    = [(WARNING, "❌ Ошибка подключения (1/3): Connection refused");
       (WARNING, "❌ Ошибка подключения (2/3): Connection refused");
       (WARNING, "❌ Ошибка подключения (3/3): Connection refused");
       (ERROR, "🚨 Не удалось подключиться к Ollama после нескольких попыток")].
Proof. repeat split; reflexivity. Qed.

Example startup_unavailable :
  (main Simulated.unavailable Simulated.process_start).1 = Ok (Exited 1).
Proof. reflexivity. Qed.

Lemma append_empty_r (s : string) : s +:+ "" = s.
Proof.
  induction s as [|c s IH]; [done|].
  change (String c (s +:+ "") = String c s). by rewrite IH.
Qed.

Lemma format_SYSTEM_TEMPLATE kw : format SYSTEM_TEMPLATE kw = Some SYSTEM_TEMPLATE.
Proof. reflexivity. Qed.

Lemma format_input user_input kw :
  format "{input}" (("input", Text user_input) :: kw) = Some user_input.
Proof.
  change (format "{input}" (("input", Text user_input) :: kw))
    with (Some (user_input +:+ "")).
  by rewrite append_empty_r.
Qed.

Lemma chat_prompt_renders user_input history :
  format_messages chat_prompt
    [("input", Text user_input); ("chat_history", Messages history)]
  = Some (SystemMessage SYSTEM_TEMPLATE :: history ++ [HumanMessage user_input]).
Proof.
  unfold chat_prompt, format_messages, format_entry.
  rewrite format_SYSTEM_TEMPLATE, format_input. reflexivity.
Qed.

(** The chain renders the template over the history it is given, hands the
    prompt to the engine once, and returns the text of the answer. *)
Lemma chain_invoke_run `{Runnable E} (llm_engine : E) user_input history s :
  let prompt := SystemMessage SYSTEM_TEMPLATE :: history ++ [HumanMessage user_input] in
  chain_invoke llm_engine
    [("input", Text user_input); ("chat_history", Messages history)] s
  = (match invoke llm_engine (invocations s) prompt with
     | Ok answer => Ok (content answer)
     | Raise e => Raise e
     end,
     set_invocations (invocations s ++ [prompt]) s).
Proof.
  intros prompt. unfold chain_invoke, prompt_invoke.
  rewrite chat_prompt_renders. fold prompt.
  step_monad. unfold llm_invoke, StrOutputParser.
  by destruct (invoke llm_engine (invocations s) prompt).
Qed.

Lemma generate_ai_response_run `{Runnable E} user_input (llm_engine : E) s :
  let outcome :=
    invoke llm_engine (invocations s) (prompt_sent (chat_history s) user_input) in
  generate_ai_response user_input llm_engine s
  = (Ok (response_of outcome),
     mkState false
       (chat_history s ++ [HumanMessage user_input; AIMessage (response_of outcome)])
       (heap s)
       (invocations s ++ [prompt_sent (chat_history s) user_input])
       (requested s) (slept s)
       (log s ++ records_of user_input outcome)).
Proof.
  intros outcome.
  unfold generate_ai_response, stop_flag_clear, stop_flag_is_set,
    chat_history_append, logging.
  step_monad. cbn -[chain_invoke].
  rewrite chain_invoke_run. cbn.
  fold (prompt_sent (chat_history s) user_input). fold outcome.
  unfold records_of, response_of.
  destruct outcome as [answer|e]; cbn;
    unfold set_log, set_chat_history, set_invocations, set_stop_flag; cbn;
    rewrite <- !app_assoc; reflexivity.
Qed.

Lemma truthy_nonempty (s : string) : s ≠ "" → truthy s = true.
Proof. by destruct s. Qed.

(** ** The request sent to the engine *)

(** C1. The request rendered by the prompt template and sent to the engine
    is: the system turn with the fixed instruction text, the conversation as
    it was before the call, and then the human turn holding the new input
    twice in a row, because the turn is appended to the history before the
    template, which adds it again, is rendered.  So the new input occurs at
    least twice in the request, not exactly once. *)
Theorem generate_ai_response_prompt_repeats_input
    `{Runnable E} (llm_engine : E) (user_input : string) (s : State) :
  let s' := (generate_ai_response user_input llm_engine s).2 in
  let prompt :=
    SystemMessage SYSTEM_TEMPLATE
      :: chat_history s ++ [HumanMessage user_input; HumanMessage user_input] in
  invocations s' = invocations s ++ [prompt]
  ∧ 2 ≤ length (filter (λ turn, turn = HumanMessage user_input) prompt).
Proof.
  intros s' prompt. subst s' prompt.
  rewrite generate_ai_response_run. cbn [snd invocations].
  split.
  - unfold prompt_sent. by rewrite <- app_assoc.
  - rewrite filter_cons_False by done.
    rewrite filter_app, length_app.
    rewrite !(filter_cons_True _ (HumanMessage user_input)) by done.
    cbn [length]. lia.
Qed.

(** The request of the first exchange of a session, evaluated. *)
Example first_prompt_holds_input_twice :
  invocations
    (@chat (Simulated.answering "print('hello world')")
       "print hello world" "deepseek-r1:1.5b" 0 Simulated.session).2
  = [[SystemMessage SYSTEM_TEMPLATE;
      AIMessage "Hi! I'm DeepSeek. How can I help you code today? 💻";
      HumanMessage "print hello world";
      HumanMessage "print hello world"]].
Proof. reflexivity. Qed.

(** ** Failures of the engine *)

(** C4. When the engine raises on invocation, [generate_ai_response] returns
    the fixed error text, raises nothing, and has appended to the
    conversation the human turn with the input and an assistant turn with
    that text. *)
Theorem generate_ai_response_engine_raises
    `{Runnable E} (llm_engine : E) (user_input : string) (s : State) :
  (∀ sent prompt, ∃ e, invoke llm_engine sent prompt = Raise e) →
  ∃ s', generate_ai_response user_input llm_engine s
        = (Ok "⚠️ Ошибка обработки запроса.", s')
      ∧ chat_history s'
        = chat_history s
          ++ [HumanMessage user_input; AIMessage "⚠️ Ошибка обработки запроса."].
Proof.
  intros Hraises. rewrite generate_ai_response_run.
  destruct (Hraises (invocations s) (prompt_sent (chat_history s) user_input))
    as [e ->].
  eexists. split; reflexivity.
Qed.

Lemma generate_ai_response_engine_raises_witness :
  ∃ s', @generate_ai_response unit Simulated.raising "hi" tt Simulated.session
        = (Ok "⚠️ Ошибка обработки запроса.", s')
      ∧ chat_history s'
        = chat_history Simulated.session
          ++ [HumanMessage "hi"; AIMessage "⚠️ Ошибка обработки запроса."].
Proof.
  apply (@generate_ai_response_engine_raises unit Simulated.raising).
  intros sent prompt. eexists. reflexivity.
Defined.

(** C5. When the engine answers with the empty text,
    [generate_ai_response] returns the fixed no-answer text, not the empty
    string, and that text is the assistant turn appended to the
    conversation. *)
Theorem generate_ai_response_empty_answer
    `{Runnable E} (llm_engine : E) (user_input : string) (s : State) :
  (∀ sent prompt, ∃ answer,
      invoke llm_engine sent prompt = Ok answer ∧ content answer = "") →
  ∃ s', generate_ai_response user_input llm_engine s
        = (Ok "⚠️ Ошибка: модель не вернула ответ.", s')
      ∧ chat_history s'
        = chat_history s
          ++ [HumanMessage user_input;
              AIMessage "⚠️ Ошибка: модель не вернула ответ."].
Proof.
  intros Hsilent. rewrite generate_ai_response_run.
  destruct (Hsilent (invocations s) (prompt_sent (chat_history s) user_input))
    as (answer & -> & Hempty).
  unfold response_of. rewrite Hempty.
  eexists. split; reflexivity.
Qed.

Lemma generate_ai_response_empty_answer_witness :
  ∃ s', @generate_ai_response unit Simulated.silent "hi" tt Simulated.session
        = (Ok "⚠️ Ошибка: модель не вернула ответ.", s')
      ∧ chat_history s'
        = chat_history Simulated.session
          ++ [HumanMessage "hi"; AIMessage "⚠️ Ошибка: модель не вернула ответ."].
Proof.
  apply (@generate_ai_response_empty_answer unit Simulated.silent).
  intros sent prompt. exists (AIMessage ""). split; reflexivity.
Defined.

(** ** [chat] *)

(** [chat] on a message that is not empty: the exchange of
    [generate_ai_response], then the pair of message and reply appended to
    the list object [history]. *)
Lemma chat_run `{Runnable ChatOllama} message model_choice history s :
  message ≠ "" →
  let run := generate_ai_response message (get_llm_engine model_choice) s in
  ∃ reply, run.1 = Ok reply
    ∧ chat message model_choice history s
      = match heap s !! history with
        | Some h =>
            (Ok (VTuple [VStr ""; VList history; VList history]),
             set_heap (<[history := h ++ [(message, reply)]]> (heap s)) run.2)
        | None =>
            (Raise (mkException OtherException "dangling reference"), run.2)
        end.
Proof.
  intros Hmessage run. subst run.
  unfold chat. rewrite (truthy_nonempty _ Hmessage). cbn [negb].
  unfold logging, emit. step_monad.
  cbn [levelno root_level Z.leb Z.compare Pos.compare Pos.compare_cont].
  assert (set_log (log s) s = s) as Hsame by by destruct s.
  rewrite !Hsame, generate_ai_response_run. cbn [fst snd].
  eexists. split; [reflexivity|].
  unfold list_append. cbn [heap].
  by destruct (heap s !! history).
Qed.

(** C8. A call of [chat] with the empty message returns at once: the value
    returned holds the empty string and the history reference it was given,
    and the whole process state is as before: no prompt was sent, the
    conversation and the list behind the reference are unchanged. *)
Theorem chat_empty_message_is_noop
    `{Runnable ChatOllama} (model_choice : string) (history : loc) (s : State) :
  let r := chat "" model_choice history s in
  r = (Ok (VTuple [VStr ""; VList history; VList history]), s)
  ∧ invocations r.2 = invocations s
  ∧ chat_history r.2 = chat_history s
  ∧ heap r.2 !! history = heap s !! history.
Proof. by cbn. Qed.

(** C2. For a message that is not empty, [chat] returns three values
    where the claim, and the binding of [msg.submit] with its two outputs,
    expect a pair: the empty string, then twice the reference to the history
    list it was given; and that list is the one it was, extended at its end by
    the single pair of the message and the reply [generate_ai_response]
    returned. *)
Theorem chat_returns_cleared_input_and_history_twice
    `{Runnable ChatOllama} (message model_choice : string) (history : loc)
    (h : list (string * string)) (s : State) :
  message ≠ "" →
  heap s !! history = Some h →
  ∃ reply s1 s',
    generate_ai_response message (get_llm_engine model_choice) s = (Ok reply, s1)
    ∧ chat message model_choice history s
      = (Ok (VTuple [VStr ""; VList history; VList history]), s')
    ∧ heap s' !! history = Some (h ++ [(message, reply)])
    ∧ chat_history s' = chat_history s1.
Proof.
  intros Hmessage Hlive.
  destruct (chat_run message model_choice history s Hmessage) as (reply & Hrun & Hchat).
  rewrite Hlive in Hchat.
  destruct (generate_ai_response message (get_llm_engine model_choice) s)
    as [r s1] eqn:Hgen.
  cbn [fst snd] in *. subst r.
  exists reply, s1. eexists. split; [reflexivity|]. split; [exact Hchat|].
  split; [|reflexivity].
  cbn [heap set_heap].
  apply list_lookup_insert_eq. by eapply lookup_lt_Some.
Qed.

Lemma chat_returns_cleared_input_and_history_twice_witness :
  ∃ reply s1 s',
    @generate_ai_response _ (Simulated.answering "print('hello world')")
      "print hello world" (get_llm_engine "deepseek-r1:1.5b") Simulated.session
    = (Ok reply, s1)
    ∧ @chat (Simulated.answering "print('hello world')")
        "print hello world" "deepseek-r1:1.5b" 0 Simulated.session
      = (Ok (VTuple [VStr ""; VList 0; VList 0]), s')
    ∧ heap s' !! 0 = Some ([] ++ [("print hello world", reply)])
    ∧ chat_history s' = chat_history s1.
Proof.
  apply (@chat_returns_cleared_input_and_history_twice
           (Simulated.answering "print('hello world')")).
  - discriminate.
  - reflexivity.
Defined.

(** At the first exchange of a session, what [chat] returns is not a
    pair. *)
Lemma chat_result_is_not_a_pair :
  ¬ ∃ first second s',
      @chat (Simulated.answering "print('hello world')")
        "print hello world" "deepseek-r1:1.5b" 0 Simulated.session
      = (Ok (VTuple [first; second]), s').
Proof. intros (first & second & s' & Hpair). vm_compute in Hpair. discriminate. Qed.

(** ** The cancellation flag *)

(** C10. [stop_generation] returns [None]; it sets the flag and writes one
    warning to the log, and leaves the conversation, every display-history
    list and the record of prompts sent as they were. *)
Theorem stop_generation_touches_only_the_flag (s : State) :
  let r := stop_generation s in
  r.1 = Ok VNone
  ∧ stop_flag r.2 = true
  ∧ chat_history r.2 = chat_history s
  ∧ heap r.2 = heap s
  ∧ invocations r.2 = invocations s
  ∧ log r.2 = log s ++ [(WARNING, "⛔ Остановка генерации пользователем")].
Proof. by cbn. Qed.

(** C6. Whatever the flag is at entry, and also when [stop_generation] has
    just run, [chat] with a message that is not empty sends the prompt to
    the engine, and the reply recorded in the conversation is the engine's
    text, or the no-answer text if that is empty, or the error text if the
    engine raised; the branch that returns the stopped-by-user text is not
    taken (its warning is not logged), and the flag is clear afterwards. *)
Theorem stop_flag_never_prevents_generation
    `{Runnable ChatOllama} (stop_first : bool)
    (message model_choice : string) (history : loc) (s : State) :
  message ≠ "" →
  let s0 := if stop_first then (stop_generation s).2 else s in
  let prompt := prompt_sent (chat_history s0) message in
  let outcome := invoke (get_llm_engine model_choice) (invocations s0) prompt in
  let reply :=
    match outcome with
    | Ok answer => or_else (content answer) "⚠️ Ошибка: модель не вернула ответ."
    | Raise _ => "⚠️ Ошибка обработки запроса."
    end in
  let s' := (chat message model_choice history s0).2 in
  (generate_ai_response message (get_llm_engine model_choice) s0).1 = Ok reply
  ∧ invocations s' = invocations s0 ++ [prompt]
  ∧ chat_history s' = chat_history s0 ++ [HumanMessage message; AIMessage reply]
  ∧ stop_flag s' = false
  ∧ log s' = log s0 ++ records_of message outcome
  ∧ (WARNING, "⛔ Генерация остановлена пользователем")
      ∉ records_of message outcome.
Proof.
  intros Hmessage s0 prompt outcome reply s'.
  destruct (chat_run message model_choice history s0 Hmessage) as (r & Hrun & Hchat).
  subst s'. rewrite Hchat. clear Hchat.
  rewrite generate_ai_response_run in *. cbn [fst snd] in *.
  fold prompt outcome in Hrun |- *.
  change (response_of outcome) with reply in *.
  split; [reflexivity|].
  assert ((WARNING, "⛔ Генерация остановлена пользователем")
            ∉ records_of message outcome) as Hnot_logged.
  { unfold records_of. intros Hin.
    destruct outcome; cbn [app] in Hin;
      repeat (apply elem_of_cons in Hin as [Hin|Hin]; [discriminate|]);
      by apply elem_of_nil in Hin. }
  destruct (heap s0 !! history); cbn; done.
Qed.

Lemma stop_flag_never_prevents_generation_witness :
  let s0 := (stop_generation Simulated.session).2 in
  let s' := (@chat (Simulated.answering "print('hello world')")
               "print hello world" "deepseek-r1:1.5b" 0 s0).2 in
  stop_flag s0 = true
  ∧ invocations s' = [prompt_sent (chat_history s0) "print hello world"]
  ∧ chat_history s'
    = chat_history s0
      ++ [HumanMessage "print hello world"; AIMessage "print('hello world')"].
Proof.
  pose proof (@stop_flag_never_prevents_generation
                (Simulated.answering "print('hello world')") true
                "print hello world" "deepseek-r1:1.5b" 0 Simulated.session
                ltac:(discriminate)) as (_ & Hsent & Hturns & _).
  split; [reflexivity|]. split; [exact Hsent | exact Hturns].
Defined.

(** ** [clear_chat] *)

(** C7. Whatever the conversation and the display lists were,
    [clear_chat] resets the conversation to the single assistant greeting,
    and returns two values where the claim, and the binding of
    [clear_btn.click] with its one output, expect one empty list: each of the
    two is a new empty list, at a location that held no list before, and the
    display lists that existed before are left as they were. *)
Theorem clear_chat_resets_and_returns_two_empty_lists (s : State) :
  ∃ first second s',
    clear_chat s = (Ok (VTuple [VList first; VList second]), s')
    ∧ chat_history s'
      = [AIMessage "Hi! I'm DeepSeek. How can I help you code today? 💻"]
    ∧ heap s !! first = None
    ∧ heap s !! second = None
    ∧ heap s' !! first = Some []
    ∧ heap s' !! second = Some []
    ∧ first ≠ second
    ∧ ∀ l h, heap s !! l = Some h → heap s' !! l = Some h.
Proof.
  exists (length (heap s)), (length (heap s ++ [[]])). eexists.
  split; [reflexivity|]. cbn [chat_history heap set_heap set_log set_chat_history].
  split; [reflexivity|].
  split; [by apply lookup_ge_None|].
  split; [apply lookup_ge_None; rewrite length_app; lia|].
  split.
  { rewrite lookup_app_l by (rewrite length_app; cbn; lia).
    by rewrite lookup_app_r, Nat.sub_diag. }
  split.
  { by rewrite lookup_app_r, Nat.sub_diag. }
  split; [rewrite length_app; cbn; lia|].
  intros l h Hl. rewrite <- app_assoc. by apply lookup_app_l_Some.
Qed.

(** In a session just created, what [clear_chat] returns is not a display
    list. *)
Lemma clear_chat_result_is_not_a_list :
  ¬ ∃ l s', clear_chat Simulated.session = (Ok (VList l), s').
Proof. intros (l & s' & Hlist). vm_compute in Hlist. discriminate. Qed.

(** ** The length of the conversation *)

Lemma chat_history_after_chat `{Runnable ChatOllama} message model_choice history s :
  message ≠ "" →
  ∃ reply, chat_history (chat message model_choice history s).2
           = chat_history s ++ exchange message reply.
Proof.
  intros Hmessage.
  destruct (chat_run message model_choice history s Hmessage) as (reply & _ & ->).
  rewrite generate_ai_response_run. cbn [snd].
  eexists. destruct (heap s !! history); cbn; reflexivity.
Qed.

Lemma submit_events_history `{Runnable ChatOllama} events :
  Forall (λ event, event.1.1 ≠ "") events →
  ∀ s, ∃ replies,
    length replies = length events
    ∧ chat_history (submit_events events s)
      = chat_history s
        ++ concat (zip_with (λ event reply, exchange event.1.1 reply)
                     events replies).
Proof.
  induction 1 as [|[[message model_choice] history] events Hmessage _ IH]; intros s.
  - exists []. cbn. by rewrite app_nil_r.
  - cbn [submit_events].
    destruct (chat_history_after_chat message model_choice history s Hmessage)
      as [reply Hturn].
    destruct (IH (chat message model_choice history s).2) as (replies & Hlen & Hrest).
    exists (reply :: replies). split; [cbn; by rewrite Hlen|].
    rewrite Hrest, Hturn. cbn [zip_with concat fst]. by rewrite <- app_assoc.
Qed.

Lemma length_concat_exchanges events (replies : list string) :
  length replies = length events →
  length (concat (zip_with (λ (event : string * string * loc) reply,
                              exchange event.1.1 reply) events replies))
  = 2 * length events.
Proof.
  revert replies. induction events as [|event events IH]; intros [|reply replies] Hlen;
    try discriminate; [done|].
  cbn [zip_with concat]. rewrite length_app, IH by (cbn in Hlen; lia).
  cbn. lia.
Qed.

(** C3. After N calls of [chat] with messages that are not empty, on a
    newly constructed [ChatBot], the conversation has 1 + 2N turns: the
    assistant greeting, then for each call in order a human turn with its
    message and an assistant turn. *)
Theorem conversation_length_after_chats
    `{Runnable ChatOllama} (events : list (string * string * loc)) (s : State) :
  Forall (λ event, event.1.1 ≠ "") events →
  let s' := submit_events events (ChatBot__init__ s).2 in
  length (chat_history s') = 1 + 2 * length events
  ∧ ∃ replies,
      length replies = length events
      ∧ chat_history s'
        = AIMessage "Hi! I'm DeepSeek. How can I help you code today? 💻"
          :: concat (zip_with (λ event reply,
                       [HumanMessage event.1.1; AIMessage reply])
                     events replies).
Proof.
  intros Hmessages s'.
  destruct (submit_events_history events Hmessages (ChatBot__init__ s).2)
    as (replies & Hlen & Hturns).
  fold s' in Hturns. cbn [ChatBot__init__ modify snd chat_history set_chat_history] in Hturns.
  split.
  - rewrite Hturns. cbn [app length]. rewrite length_concat_exchanges by done. lia.
  - exists replies. split; [done|]. exact Hturns.
Qed.

Lemma conversation_length_after_chats_witness :
  let s' := @submit_events (Simulated.answering "ok")
              [("first", "deepseek-r1:1.5b", 0); ("second", "deepseek-r1:7b", 0)]
              (ChatBot__init__ Simulated.session).2 in
  length (chat_history s') = 5.
Proof.
  apply (@conversation_length_after_chats (Simulated.answering "ok")
           [("first", "deepseek-r1:1.5b", 0); ("second", "deepseek-r1:7b", 0)]).
  repeat constructor; discriminate.
Defined.

(** ** The connectivity probe at start-up *)

(** What the probe does when the first GET is answered with a success
    status: one GET, one record, [True]. *)
Lemma test_ollama_connection_first_success network (code : Z) s :
  network (requested s) "http://ollama:11434/api/tags" = Ok (mkResponse code) →
  (200 ≤ code < 300)%Z →
  test_ollama_connection network 3 3 s
  = (Ok true,
     set_log (log s ++ [(INFO, "✅ Успешное подключение к Ollama")])
       (set_requested (requested s ++ ["http://ollama:11434/api/tags"]) s)).
Proof.
  intros Hget Hcode.
  unfold test_ollama_connection.
  change (range 3) with [0; 1; 2]%Z. cbn [for_each].
  change (OLLAMA_API +:+ "/api/tags") with "http://ollama:11434/api/tags".
  unfold requests_get, raise_for_status, logging. step_monad.
  rewrite Hget. cbn [status_code].
  replace (400 <=? code)%Z with false by (symmetry; apply Z.leb_gt; lia).
  reflexivity.
Qed.

(** C9. With a backend that answers every GET with a 2xx status, the
    program reaches the point where it serves the interface after two calls
    of the probe, not one: the health endpoint has been fetched twice and
    the success record logged twice. *)
Theorem startup_probes_twice (network : Network) (s : State) :
  (∀ fetched url, ∃ code,
      network fetched url = Ok (mkResponse code) ∧ (200 ≤ code < 300)%Z) →
  ∃ s', main network s = (Ok Serving, s')
      ∧ requested s'
        = requested s
          ++ ["http://ollama:11434/api/tags"; "http://ollama:11434/api/tags"]
      ∧ log s'
        = log s
          ++ [(INFO, "✅ Успешное подключение к Ollama");
              (INFO, "✅ Успешное подключение к Ollama")].
Proof.
  intros Hreachable.
  unfold main, module_body.
  destruct (Hreachable (requested s) "http://ollama:11434/api/tags")
    as (code1 & Hget1 & Hcode1).
  unfold mbind, M_bind. cbv beta.
  rewrite (test_ollama_connection_first_success network code1 s Hget1 Hcode1).
  cbn [negb]. cbv beta iota.
  set (s1 := set_log _ _).
  destruct (Hreachable (requested s1) "http://ollama:11434/api/tags")
    as (code2 & Hget2 & Hcode2).
  rewrite (test_ollama_connection_first_success network code2 s1 Hget2 Hcode2).
  eexists. split; [reflexivity|].
  subst s1. cbn. rewrite <- !app_assoc. split; reflexivity.
Qed.

Lemma startup_probes_twice_witness :
  ∃ s', main Simulated.reachable Simulated.process_start = (Ok Serving, s')
      ∧ requested s'
        = requested Simulated.process_start
          ++ ["http://ollama:11434/api/tags"; "http://ollama:11434/api/tags"]
      ∧ log s'
        = log Simulated.process_start
          ++ [(INFO, "✅ Успешное подключение к Ollama");
              (INFO, "✅ Успешное подключение к Ollama")].
Proof.
  apply (startup_probes_twice Simulated.reachable Simulated.process_start).
  intros fetched url. exists 200%Z. split; [reflexivity | lia].
Defined.

(** * Further properties of the code *)

(** ** One attempt of the probe *)

Lemma test_ollama_connection_loop network retries delay :
  test_ollama_connection network retries delay
  = (r ← for_each (range retries) (attempt network retries delay);
     match r with
     | Some b => mret b
     | None =>
         logging ERROR "🚨 Не удалось подключиться к Ollama после нескольких попыток" ;;
         mret false
     end).
Proof. reflexivity. Qed.

Lemma length_range (n : Z) : length (range n) = Z.to_nat n.
Proof. unfold range. by rewrite length_fmap, length_seq. Qed.

Lemma sleep_error_accepted (secs : Z) :
  (0 ≤ secs ≤ 9223372036)%Z → sleep_error secs = None.
Proof.
  intros Hsecs. unfold sleep_error. cbv zeta.
  replace (secs * 1000000000 <? -9223372036854775808)%Z with false
    by (symmetry; apply Z.ltb_ge; lia).
  replace (9223372036854775807 <? secs * 1000000000)%Z with false
    by (symmetry; apply Z.ltb_ge; lia).
  replace (secs <? 0)%Z with false by (symmetry; apply Z.ltb_ge; lia).
  reflexivity.
Qed.

Lemma sleep_error_refused (secs : Z) :
  (secs < 0 ∨ 9223372036 < secs)%Z →
  ∃ refused,
    sleep_error secs = Some refused
    ∧ exc_class refused
      = if ((-9223372036 <=? secs) && (secs <? 0))%Z
        then ValueError else OverflowError.
Proof.
  intros Hsecs. unfold sleep_error. cbv zeta.
  destruct (Z.ltb_spec (secs * 1000000000) (-9223372036854775808));
    destruct (Z.ltb_spec 9223372036854775807 (secs * 1000000000));
    destruct (Z.ltb_spec secs 0);
    destruct (Z.leb_spec (-9223372036) secs);
    cbn; try lia; eexists; split; reflexivity.
Qed.

Lemma attempt_run network retries delay i s :
  attempt network retries delay i s
  = match classify (network (requested s) health_url) with
    | Reached =>
        (Ok (Some true),
         set_log (log s ++ [(INFO, "✅ Успешное подключение к Ollama")])
           (set_requested (requested s ++ [health_url]) s))
    | Failed e =>
        match sleep_error delay with
        | Some refused => (Raise refused, after_failure retries delay i e s)
        | None =>
            (Ok None,
             set_slept (slept s ++ [delay]) (after_failure retries delay i e s))
        end
    | Crashed e => (Raise e, set_requested (requested s ++ [health_url]) s)
    end.
Proof.
  unfold attempt, requests_get, raise_for_status, time_sleep, logging, classify,
    after_failure.
  step_monad.
  destruct (network (requested s) health_url) as [[code]|e]; cbn [status_code].
  - destruct ((400 <=? code)%Z && (code <? 600)%Z); cbn;
      [destruct (sleep_error delay)|]; reflexivity.
  - destruct (isinstance_RequestException e); [destruct (sleep_error delay)|];
      reflexivity.
Qed.

(** Every attempt fetches the health endpoint exactly once, whatever the
    answer. *)
Lemma attempt_requested network retries delay i s :
  requested (attempt network retries delay i s).2 = requested s ++ [health_url].
Proof.
  rewrite attempt_run.
  destruct (classify _); [|destruct (sleep_error delay)|]; reflexivity.
Qed.

Lemma replicate_snoc {A} (n : nat) (x : A) (l : list A) :
  (l ++ [x]) ++ replicate n x = l ++ replicate (S n) x.
Proof. by rewrite <- app_assoc. Qed.

(** The loop when the first [k] attempts fail and the next one reaches the
    endpoint. *)
Lemma for_each_reaches network retries delay (k : nat) :
  (0 ≤ delay ≤ 9223372036)%Z →
  ∀ indices s,
    k < length indices →
    (∀ j, j < k → ∃ e,
        classify (network (requested s ++ replicate j health_url) health_url)
        = Failed e) →
    classify (network (requested s ++ replicate k health_url) health_url)
    = Reached →
    ∃ s', for_each indices (attempt network retries delay) s = (Ok (Some true), s')
        ∧ requested s' = requested s ++ replicate (S k) health_url
        ∧ slept s' = slept s ++ replicate k delay
        ∧ last (log s') = Some (INFO, "✅ Успешное подключение к Ollama")
        ∧ chat_history s' = chat_history s.
Proof.
  intros Hdelay. induction k as [|k IH]; intros [|i indices] s Hlen Hfail Hreach;
    cbn [length] in Hlen; try lia.
  - cbn [replicate] in Hreach. rewrite app_nil_r in Hreach.
    cbn [for_each]. step_monad. rewrite attempt_run, Hreach.
    eexists. split; [reflexivity|]. cbn. rewrite app_nil_r, last_snoc. done.
  - destruct (Hfail 0 ltac:(lia)) as [e He].
    cbn [replicate] in He. rewrite app_nil_r in He.
    cbn [for_each]. step_monad. rewrite attempt_run, He.
    rewrite (sleep_error_accepted delay Hdelay).
    set (s1 := set_slept _ _).
    destruct (IH indices s1) as (s' & Hrun & Hreq & Hslept & Hlog & Hconv).
    + lia.
    + intros j Hj. subst s1. cbn [requested set_slept after_failure set_log set_requested].
      rewrite replicate_snoc. apply Hfail. lia.
    + subst s1. cbn [requested set_slept after_failure set_log set_requested].
      by rewrite replicate_snoc.
    + exists s'. split; [exact Hrun|]. rewrite Hreq, Hslept, Hlog, Hconv.
      subst s1. cbn [requested slept chat_history set_slept after_failure set_log set_requested].
      rewrite !replicate_snoc. done.
Qed.

(** The loop when every attempt fails. *)
Lemma for_each_exhausts network retries delay :
  (0 ≤ delay ≤ 9223372036)%Z →
  ∀ indices s,
    (∀ j, j < length indices → ∃ e,
        classify (network (requested s ++ replicate j health_url) health_url)
        = Failed e) →
    ∃ s', for_each indices (attempt network retries delay) s = (Ok None, s')
        ∧ requested s' = requested s ++ replicate (length indices) health_url
        ∧ slept s' = slept s ++ replicate (length indices) delay
        ∧ chat_history s' = chat_history s
        ∧ ∃ warnings, log s' = log s ++ warnings
                      ∧ length warnings = length indices
                      ∧ Forall (λ record, record.1 = WARNING) warnings.
Proof.
  intros Hdelay. induction indices as [|i indices IH]; intros s Hfail.
  - eexists. split; [reflexivity|]. cbn. rewrite !app_nil_r.
    repeat split. exists []. by rewrite app_nil_r.
  - destruct (Hfail 0 ltac:(cbn; lia)) as [e He].
    cbn [replicate] in He. rewrite app_nil_r in He.
    cbn [for_each]. step_monad. rewrite attempt_run, He.
    rewrite (sleep_error_accepted delay Hdelay).
    set (s1 := set_slept _ _).
    destruct (IH s1) as (s' & Hrun & Hreq & Hslept & Hconv & warnings & Hlog & Hlen & Hall).
    { intros j Hj. subst s1. cbn [requested set_slept after_failure set_log set_requested].
      rewrite replicate_snoc. apply Hfail. cbn. lia. }
    exists s'. split; [exact Hrun|]. rewrite Hreq, Hslept, Hconv, Hlog.
    subst s1. cbn [requested slept chat_history log length set_slept after_failure set_log set_requested].
    rewrite !replicate_snoc. repeat split.
    eexists (_ :: warnings). split; [by rewrite <- app_assoc|].
    split; [by cbn; rewrite Hlen|]. by constructor.
Qed.

(** The loop never fetches more often than it has indices, and fetches
    nothing but the health endpoint. *)
Lemma for_each_bound network retries delay indices :
  ∀ s, ∃ n,
    n ≤ length indices
    ∧ requested (for_each indices (attempt network retries delay) s).2
      = requested s ++ replicate n health_url.
Proof.
  induction indices as [|i indices IH]; intros s.
  - exists 0. split; [done|]. cbn. by rewrite app_nil_r.
  - cbn [for_each]. step_monad.
    pose proof (attempt_requested network retries delay i s) as Hreq.
    destruct (attempt network retries delay i s) as [[[b|]|e] s1]; cbn [snd] in *.
    + exists 1. split; [cbn; lia|]. by rewrite Hreq.
    + destruct (IH s1) as (n & Hn & Hrest). exists (S n). split; [cbn; lia|].
      rewrite Hrest, Hreq. by rewrite replicate_snoc.
    + exists 1. split; [cbn; lia|]. by rewrite Hreq.
Qed.

Lemma attempt_chat_state network retries delay i s :
  chat_state (attempt network retries delay i s).2 = chat_state s.
Proof.
  rewrite attempt_run.
  destruct (classify _); [|destruct (sleep_error delay)|]; reflexivity.
Qed.

Lemma for_each_chat_state network retries delay indices :
  ∀ s, chat_state (for_each indices (attempt network retries delay) s).2
       = chat_state s.
Proof.
  induction indices as [|i indices IH]; intros s; [done|].
  cbn [for_each]. step_monad.
  pose proof (attempt_chat_state network retries delay i s) as Hsame.
  destruct (attempt network retries delay i s) as [[[b|]|e] s1]; cbn [snd] in *;
    [done| |done].
  by rewrite IH.
Qed.

Lemma range_positive (n : Z) : (1 ≤ n)%Z → ∃ rest, range n = 0%Z :: rest.
Proof.
  intros Hn. unfold range.
  destruct (Z.to_nat n) as [|m] eqn:Hm; [lia|]. cbn. by eexists.
Qed.

(** ** [test_ollama_connection] *)





(** What one call of the probe can touch. *)
Lemma test_ollama_connection_footprint network retries delay s :
  let s' := (test_ollama_connection network retries delay s).2 in
  (∃ n, n ≤ Z.to_nat retries
        ∧ requested s' = requested s ++ replicate n health_url)
  ∧ chat_state s' = chat_state s.
Proof.
  intros s'. subst s'. rewrite test_ollama_connection_loop. step_monad.
  destruct (for_each_bound network retries delay (range retries) s)
    as (n & Hn & Hreq).
  pose proof (for_each_chat_state network retries delay (range retries) s) as Hsame.
  rewrite length_range in Hn.
  destruct (for_each (range retries) (attempt network retries delay) s)
    as [[[b|]|e] s1]; cbn [snd] in *; (split; [exists n; by split|done]).
Qed.

(** X3. Whatever the network answers and whatever the delay, one call of
    the probe fetches the health endpoint at most [retries] times and fetches
    nothing else; and it leaves the flag, the conversation, the display lists
    and the record of prompts as they were. *)
Theorem probe_fetches_at_most_retries
    (network : Network) (retries delay : Z) (s : State) :
  let s' := (test_ollama_connection network retries delay s).2 in
  (∃ n, n ≤ Z.to_nat retries
        ∧ requested s' = requested s ++ replicate n health_url)
  ∧ chat_state s' = chat_state s.
Proof. apply test_ollama_connection_footprint. Qed.

(** X4. An exception of [requests.get] that is not a [RequestException] is
    not caught by the loop: raised at the first attempt, it leaves the probe
    at once, after that one GET, with nothing logged and no sleep. *)
Theorem probe_propagates_other_exceptions
    (network : Network) (retries delay : Z) (e : Exception) (s : State) :
  (1 ≤ retries)%Z →
  network (requested s) health_url = Raise e →
  isinstance_RequestException e = false →
  test_ollama_connection network retries delay s
  = (Raise e, set_requested (requested s ++ [health_url]) s).
Proof.
  intros Hretries Hget Hclass.
  destruct (range_positive retries Hretries) as [rest Hrange].
  rewrite test_ollama_connection_loop, Hrange. cbn [for_each]. step_monad.
  rewrite attempt_run. unfold classify. rewrite Hget, Hclass. reflexivity.
Qed.

Lemma probe_propagates_other_exceptions_witness :
  test_ollama_connection Simulated.crashing 3 3 Simulated.process_start
  = (Raise (mkException OtherException "out of memory"),
     set_requested (requested Simulated.process_start ++ [health_url])
       Simulated.process_start).
Proof.
  apply (probe_propagates_other_exceptions Simulated.crashing 3 3).
  - lia.
  - reflexivity.
  - reflexivity.
Defined.

(** X5. With a delay that [time.sleep] refuses, a failed first attempt ends
    the probe with the exception [time.sleep] raises inside the handler: a
    [ValueError] for a negative delay down to -9223372036, an [OverflowError]
    for a delay below that or above 9223372036.  One GET was made, the warning
    of the first attempt logged, nothing slept, and there is no further
    attempt. *)
Theorem probe_refused_delay_raises
    (network : Network) (retries delay : Z) (e : Exception) (s : State) :
  (1 ≤ retries)%Z →
  (delay < 0 ∨ 9223372036 < delay)%Z →
  classify (network (requested s) health_url) = Failed e →
  ∃ refused s',
    test_ollama_connection network retries delay s = (Raise refused, s')
    ∧ exc_class refused
      = (if ((-9223372036 <=? delay) && (delay <? 0))%Z
         then ValueError else OverflowError)
    ∧ requested s' = requested s ++ [health_url]
    ∧ slept s' = slept s
    ∧ ∃ warning, log s' = log s ++ [(WARNING, warning)].
Proof.
  intros Hretries Hdelay Hfail.
  destruct (range_positive retries Hretries) as [rest Hrange].
  destruct (sleep_error_refused delay Hdelay) as (refused & Hrefused & Hclass).
  rewrite test_ollama_connection_loop, Hrange. cbn [for_each]. step_monad.
  rewrite attempt_run, Hfail, Hrefused.
  exists refused. eexists. split; [reflexivity|]. split; [exact Hclass|].
  cbn. repeat split. by eexists.
Qed.

Lemma probe_refused_delay_raises_witness :
  ∃ refused s',
    test_ollama_connection Simulated.unreachable 3 (-1) Simulated.process_start
    = (Raise refused, s')
    ∧ exc_class refused
      = (if ((-9223372036 <=? -1) && (-1 <? 0))%Z
         then ValueError else OverflowError)
    ∧ requested s' = requested Simulated.process_start ++ [health_url]
    ∧ slept s' = slept Simulated.process_start
    ∧ ∃ warning, log s' = log Simulated.process_start ++ [(WARNING, warning)].
Proof.
  apply (probe_refused_delay_raises Simulated.unreachable 3 (-1)
           (mkException RequestException "Connection refused")).
  - lia.
  - lia.
  - reflexivity.
Defined.

(** ** Start-up *)

(** X6. When every GET fails, the program exits with status 1 after
    exactly three GETs and three sleeps of three seconds, and no [ChatBot] is
    constructed: the conversation is what it was. *)
Theorem main_exits_when_backend_unreachable (network : Network) (s : State) :
  (∀ fetched, ∃ e, classify (network fetched health_url) = Failed e) →
  ∃ s', main network s = (Ok (Exited 1), s')
      ∧ requested s' = requested s ++ [health_url; health_url; health_url]
      ∧ slept s' = slept s ++ [3; 3; 3]%Z
      ∧ chat_history s' = chat_history s.
Proof.
  intros Hfail.
  destruct (for_each_exhausts network 3 3 ltac:(lia) (range 3) s)
    as (s1 & Hrun & Hreq & Hslept & Hconv & _).
  { intros j _. apply Hfail. }
  unfold main, module_body. rewrite test_ollama_connection_loop.
  step_monad. rewrite Hrun. cbn [negb].
  eexists. split; [reflexivity|]. cbn. by rewrite Hreq, Hslept, Hconv.
Qed.

Lemma main_exits_when_backend_unreachable_witness :
  ∃ s', main Simulated.unreachable Simulated.process_start = (Ok (Exited 1), s')
      ∧ requested s'
        = requested Simulated.process_start ++ [health_url; health_url; health_url]
      ∧ slept s' = slept Simulated.process_start ++ [3; 3; 3]%Z
      ∧ chat_history s' = chat_history Simulated.process_start.
Proof.
  apply (main_exits_when_backend_unreachable Simulated.unreachable).
  intros fetched. eexists. reflexivity.
Defined.

(** X7. The result of the second call of the probe is dropped: when the
    first GET reaches the endpoint and every later one fails, the program
    still goes on to serve the interface, after four GETs and three sleeps,
    with the conversation seeded with the greeting. *)
Theorem main_serves_though_second_probe_fails (network : Network) (s : State) :
  classify (network (requested s) health_url) = Reached →
  (∀ j, j < 3 → ∃ e,
      classify (network ((requested s ++ [health_url]) ++ replicate j health_url)
                  health_url) = Failed e) →
  ∃ s', main network s = (Ok Serving, s')
      ∧ requested s' = requested s ++ replicate 4 health_url
      ∧ slept s' = slept s ++ [3; 3; 3]%Z
      ∧ chat_history s'
        = [AIMessage "Hi! I'm DeepSeek. How can I help you code today? 💻"].
Proof.
  intros Hfirst Hlater.
  destruct (for_each_reaches network 3 3 0 ltac:(lia) (range 3) s)
    as (s1 & Hrun1 & Hreq1 & Hslept1 & _);
    [rewrite length_range; lia | intros j Hj; lia
    | by cbn [replicate]; rewrite app_nil_r |].
  cbn [replicate] in Hreq1, Hslept1. rewrite app_nil_r in Hslept1.
  destruct (for_each_exhausts network 3 3 ltac:(lia) (range 3) s1)
    as (s2 & Hrun2 & Hreq2 & Hslept2 & _).
  { intros j Hj. rewrite Hreq1. apply Hlater. by rewrite length_range in Hj. }
  unfold main, module_body. rewrite !test_ollama_connection_loop.
  step_monad. rewrite Hrun1. cbn [negb]. rewrite Hrun2.
  eexists. split; [reflexivity|].
  cbn. rewrite Hreq2, Hslept2, Hreq1, Hslept1, <- app_assoc. done.
Qed.

Lemma main_serves_though_second_probe_fails_witness :
  ∃ s', main Simulated.vanishing Simulated.process_start = (Ok Serving, s')
      ∧ requested s' = requested Simulated.process_start ++ replicate 4 health_url
      ∧ slept s' = slept Simulated.process_start ++ [3; 3; 3]%Z
      ∧ chat_history s'
        = [AIMessage "Hi! I'm DeepSeek. How can I help you code today? 💻"].
Proof.
  apply (main_serves_though_second_probe_fails Simulated.vanishing).
  - reflexivity.
  - intros j Hj. destruct j as [|[|[|j]]]; [eexists; reflexivity..|lia].
Defined.

(** X8. Whatever the network does, the program ends its start-up in one of
    three ways: it serves, with the conversation seeded with the greeting; it
    exits, and then with status 1 and the conversation untouched; or an
    exception of the probe escapes, the conversation untouched.  In each case
    it has fetched the health endpoint at most six times and nothing else. *)
Theorem main_outcomes (network : Network) (s : State) :
  let r := main network s in
  match r.1 with
  | Ok Serving =>
      chat_history r.2
      = [AIMessage "Hi! I'm DeepSeek. How can I help you code today? 💻"]
  | Ok (Exited code) => code = 1%Z ∧ chat_history r.2 = chat_history s
  | Raise _ => chat_history r.2 = chat_history s
  end
  ∧ ∃ n, n ≤ 6 ∧ requested r.2 = requested s ++ replicate n health_url.
Proof.
  intros r. subst r. unfold main, module_body. step_monad.
  destruct (test_ollama_connection_footprint network 3 3 s)
    as [(n1 & Hn1 & Hreq1) Hsame1].
  destruct (test_ollama_connection network 3 3 s) as [[[|]|e1] s1];
    cbn [snd negb fst] in *.
  - destruct (test_ollama_connection_footprint network 3 3 s1)
      as [(n2 & Hn2 & Hreq2) Hsame2].
    destruct (test_ollama_connection network 3 3 s1) as [[ok2|e2] s2];
      cbn [snd fst] in *.
    + split; [reflexivity|]. exists (n1 + n2). split; [lia|].
      cbn. rewrite Hreq2, Hreq1, <- app_assoc. by rewrite replicate_add.
    + split; [injection Hsame1; injection Hsame2; congruence|].
      exists (n1 + n2). split; [lia|].
      rewrite Hreq2, Hreq1, <- app_assoc. by rewrite replicate_add.
  - split; [split; [done|by injection Hsame1]|].
    exists n1. split; [lia | done].
  - split; [by injection Hsame1|]. exists n1. split; [lia | done].
Qed.

(** ** The prompt template *)

(** X9. For every input text, braces included, and every history,
    [chat_prompt] renders without a formatting error: the system message with
    the fixed instruction, the history as it is, and one human message whose
    content is the input text character for character. *)
Theorem chat_prompt_renders_input_verbatim
    (user_input : string) (history : list BaseMessage) :
  format_messages chat_prompt
    [("input", Text user_input); ("chat_history", Messages history)]
  = Some ([SystemMessage SYSTEM_TEMPLATE] ++ history ++ [HumanMessage user_input]).
Proof. apply chat_prompt_renders. Qed.

(** ** [generate_ai_response] *)

Lemma last_after_two {A} (l : list A) (x y : A) : last (l ++ [x; y]) = Some y.
Proof. change (l ++ [x; y]) with (l ++ [x] ++ [y]). by rewrite app_assoc, last_snoc. Qed.

Lemma or_else_nonempty (a b : string) : b ≠ "" → or_else a b ≠ "".
Proof. intros Hb. unfold or_else. by destruct a. Qed.

Lemma response_of_nonempty outcome : response_of outcome ≠ "".
Proof. destruct outcome; cbn; [by apply or_else_nonempty | done]. Qed.

(** X10. When the engine answers with a text that is not empty,
    [generate_ai_response] returns that text unchanged and appends to the
    conversation the human turn with the input and the assistant turn with
    that text. *)
Theorem generate_ai_response_returns_answer
    `{Runnable E} (llm_engine : E) (user_input : string) (answer : BaseMessage)
    (s : State) :
  (∀ sent prompt, invoke llm_engine sent prompt = Ok answer) →
  content answer ≠ "" →
  ∃ s', generate_ai_response user_input llm_engine s = (Ok (content answer), s')
      ∧ chat_history s'
        = chat_history s ++ [HumanMessage user_input; AIMessage (content answer)].
Proof.
  intros Hanswer Hnonempty. rewrite generate_ai_response_run, Hanswer.
  unfold response_of, or_else. rewrite (truthy_nonempty _ Hnonempty).
  eexists. split; reflexivity.
Qed.

Lemma generate_ai_response_returns_answer_witness :
  ∃ s', @generate_ai_response _ (Simulated.answering "print('hello world')")
          "print hello world" (get_llm_engine "deepseek-r1:7b") Simulated.session
        = (Ok (content (AIMessage "print('hello world')")), s')
      ∧ chat_history s'
        = chat_history Simulated.session
          ++ [HumanMessage "print hello world";
              AIMessage (content (AIMessage "print('hello world')"))].
Proof.
  apply (@generate_ai_response_returns_answer _
           (Simulated.answering "print('hello world')")).
  - reflexivity.
  - discriminate.
Defined.

(** X11. Whatever the engine does, [generate_ai_response] raises nothing
    and returns a text that is not empty; that text is the content of the
    assistant turn now last in the conversation, and exactly one prompt was
    handed to the engine. *)
Theorem generate_ai_response_always_replies
    `{Runnable E} (llm_engine : E) (user_input : string) (s : State) :
  ∃ reply s',
    generate_ai_response user_input llm_engine s = (Ok reply, s')
    ∧ reply ≠ ""
    ∧ last (chat_history s') = Some (AIMessage reply)
    ∧ length (invocations s') = S (length (invocations s)).
Proof.
  rewrite generate_ai_response_run. eexists. eexists.
  split; [reflexivity|]. split; [apply response_of_nonempty|].
  cbn [chat_history invocations]. split.
  - apply last_after_two.
  - rewrite length_app. cbn. lia.
Qed.

(** ** [chat], the conversation and the display list *)

Lemma chat_effect `{Runnable ChatOllama} message model_choice history s :
  message ≠ "" →
  let s' := (chat message model_choice history s).2 in
  let outcome :=
    invoke (get_llm_engine model_choice) (invocations s)
      (prompt_sent (chat_history s) message) in
  chat_history s' = chat_history s ++ exchange message (response_of outcome)
  ∧ invocations s' = invocations s ++ [prompt_sent (chat_history s) message]
  ∧ stop_flag s' = false
  ∧ requested s' = requested s
  ∧ slept s' = slept s
  ∧ heap s'
    = match heap s !! history with
      | Some h => <[history := h ++ [(message, response_of outcome)]]> (heap s)
      | None => heap s
      end
  ∧ (chat message model_choice history s).1
    = match heap s !! history with
      | Some _ => Ok (VTuple [VStr ""; VList history; VList history])
      | None => Raise (mkException OtherException "dangling reference")
      end.
Proof.
  intros Hmessage s' outcome. subst s'.
  destruct (chat_run message model_choice history s Hmessage) as (reply & Hrun & ->).
  rewrite generate_ai_response_run in *. cbn [fst snd] in *.
  fold outcome in Hrun |- *. injection Hrun as <-.
  destruct (heap s !! history); cbn; done.
Qed.

(** One call of [chat], with any message, keeps the conversation and the
    display list it is given in step. *)
Lemma chat_in_sync `{Runnable ChatOllama} message model_choice history s :
  in_sync history s →
  in_sync history (chat message model_choice history s).2.
Proof.
  intros (pairs & Hlive & Hconv).
  destruct (decide (message = "")) as [->|Hmessage]; [by exists pairs|].
  destruct (chat_effect message model_choice history s Hmessage)
    as (Hturns & _ & _ & _ & _ & Hheap & _).
  rewrite Hlive in Hheap.
  eexists. split.
  - rewrite Hheap. apply list_lookup_insert_eq. by eapply lookup_lt_Some.
  - rewrite Hturns, Hconv, fmap_app, concat_app. reflexivity.
Qed.

(** X12. If the conversation and the display list at [history] are in step
    (the conversation is the greeting followed by one human and one assistant
    turn per pair of the list), they are still in step after any sequence of
    [chat] calls that are all given that list, whatever the messages (empty
    ones included) and whatever the engine answers. *)
Theorem chats_keep_conversation_and_display_in_sync
    `{Runnable ChatOllama} (events : list (string * string * loc))
    (history : loc) (s : State) :
  Forall (λ event, event.2 = history) events →
  in_sync history s →
  in_sync history (submit_events events s).
Proof.
  intros Hsame. revert s.
  induction Hsame as [|[[message model_choice] h] events Hh _ IH]; intros s Hsync;
    [done|].
  cbn in Hh. subst h. cbn [submit_events]. apply IH. by apply chat_in_sync.
Qed.

Lemma chats_keep_conversation_and_display_in_sync_witness :
  in_sync 0
    (@submit_events (Simulated.answering "ok")
       [("first", "deepseek-r1:1.5b", 0); ("", "deepseek-r1:7b", 0);
        ("second", "deepseek-r1:14b", 0)]
       Simulated.session).
Proof.
  apply (@chats_keep_conversation_and_display_in_sync (Simulated.answering "ok")).
  - repeat constructor.
  - exists []. split; reflexivity.
Defined.

(** X13. [clear_chat] does not empty the display list the caller holds: if
    conversation and display list were in step and the list has a pair, then
    after [clear_chat] the list still has its pairs while the conversation is
    back to the greeting, so the two are out of step. *)
Theorem clear_chat_leaves_display_list_behind
    (history : loc) (pairs : list (string * string)) (s : State) :
  heap s !! history = Some pairs →
  pairs ≠ [] →
  let s' := (clear_chat s).2 in
  heap s' !! history = Some pairs
  ∧ chat_history s'
    = [AIMessage "Hi! I'm DeepSeek. How can I help you code today? 💻"]
  ∧ ¬ in_sync history s'.
Proof.
  intros Hlive Hpairs s'.
  assert (heap s' !! history = Some pairs) as Hkept.
  { subst s'. change (heap (clear_chat s).2) with ((heap s ++ [[]]) ++ [[]]).
    by do 2 apply lookup_app_l_Some. }
  split; [exact Hkept|]. split; [reflexivity|].
  intros (pairs' & Hlive' & Hconv).
  rewrite Hkept in Hlive'. injection Hlive' as <-.
  destruct pairs as [|pair pairs]; [done|].
  subst s'. cbn in Hconv. discriminate.
Qed.

Lemma clear_chat_leaves_display_list_behind_witness :
  let s := (@chat (Simulated.answering "ok") "hi" "deepseek-r1:1.5b" 0
              Simulated.session).2 in
  heap (clear_chat s).2 !! 0 = Some [("hi", "ok")]
  ∧ chat_history (clear_chat s).2
    = [AIMessage "Hi! I'm DeepSeek. How can I help you code today? 💻"]
  ∧ ¬ in_sync 0 (clear_chat s).2.
Proof.
  apply (clear_chat_leaves_display_list_behind 0 [("hi", "ok")]).
  - reflexivity.
  - discriminate.
Defined.

(** X14. [stop_generation] changes nothing about the next exchange: [chat]
    with a message that is not empty returns the same value and leaves the
    same flag, conversation, display lists and record of prompts whether or
    not [stop_generation] was called just before it. *)
Theorem stop_generation_does_not_affect_next_chat
    `{Runnable ChatOllama} (message model_choice : string) (history : loc)
    (s : State) :
  message ≠ "" →
  let stopped := chat message model_choice history (stop_generation s).2 in
  let plain := chat message model_choice history s in
  stopped.1 = plain.1 ∧ chat_state stopped.2 = chat_state plain.2.
Proof.
  intros Hmessage stopped plain. subst stopped plain.
  destruct (chat_effect message model_choice history s Hmessage)
    as (Hturns & Hsent & Hflag & _ & _ & Hheap & Hvalue).
  destruct (chat_effect message model_choice history (stop_generation s).2 Hmessage)
    as (Hturns' & Hsent' & Hflag' & _ & _ & Hheap' & Hvalue').
  change (heap (stop_generation s).2) with (heap s) in *.
  change (chat_history (stop_generation s).2) with (chat_history s) in *.
  change (invocations (stop_generation s).2) with (invocations s) in *.
  split; [by rewrite Hvalue, Hvalue'|].
  unfold chat_state. by rewrite Hturns, Hsent, Hflag, Hheap, Hturns', Hsent', Hflag', Hheap'.
Qed.

Lemma stop_generation_does_not_affect_next_chat_witness :
  let stopped := @chat (Simulated.answering "ok") "hi" "deepseek-r1:1.5b" 0
                   (stop_generation Simulated.session).2 in
  let plain := @chat (Simulated.answering "ok") "hi" "deepseek-r1:1.5b" 0
                 Simulated.session in
  stopped.1 = plain.1 ∧ chat_state stopped.2 = chat_state plain.2.
Proof.
  apply (@stop_generation_does_not_affect_next_chat (Simulated.answering "ok")).
  discriminate.
Defined.

(** X15. [chat] writes to no display list but the one it is given: every
    other list is as it was, no list is created or removed, and the probe's
    records (URLs fetched, sleeps) are untouched. *)
Theorem chat_touches_only_its_history_list
    `{Runnable ChatOllama} (message model_choice : string) (history other : loc)
    (s : State) :
  other ≠ history →
  let s' := (chat message model_choice history s).2 in
  heap s' !! other = heap s !! other
  ∧ length (heap s') = length (heap s)
  ∧ requested s' = requested s
  ∧ slept s' = slept s.
Proof.
  intros Hother s'. subst s'.
  destruct (decide (message = "")) as [->|Hmessage]; [done|].
  destruct (chat_effect message model_choice history s Hmessage)
    as (_ & _ & _ & Hreq & Hslept & Hheap & _).
  rewrite Hheap, Hreq, Hslept.
  destruct (heap s !! history); [|done].
  by rewrite list_lookup_insert_ne, length_insert.
Qed.

Lemma chat_touches_only_its_history_list_witness :
  let s := set_heap [[]; [("earlier", "reply")]] Simulated.session in
  let s' := (@chat (Simulated.answering "ok") "hi" "deepseek-r1:1.5b" 0 s).2 in
  heap s' !! 1 = heap s !! 1
  ∧ length (heap s') = length (heap s)
  ∧ requested s' = requested s
  ∧ slept s' = slept s.
Proof.
  apply (@chat_touches_only_its_history_list (Simulated.answering "ok")).
  discriminate.
Defined.

(** ** How the requests grow *)





(** ** [clear_chat] and what follows *)

(** X17. [clear_chat] starts the conversation over, whatever it held: after
    [clear_chat] and then N calls of [chat] with messages that are not empty,
    the conversation has 1 + 2N turns and begins with the greeting. *)
Theorem conversation_restarts_after_clear_chat
    `{Runnable ChatOllama} (events : list (string * string * loc)) (s : State) :
  Forall (λ event, event.1.1 ≠ "") events →
  let s' := submit_events events (clear_chat s).2 in
  length (chat_history s') = 1 + 2 * length events
  ∧ head (chat_history s')
    = Some (AIMessage "Hi! I'm DeepSeek. How can I help you code today? 💻").
Proof.
  intros Hmessages s'.
  destruct (submit_events_history events Hmessages (clear_chat s).2)
    as (replies & Hlen & Hturns).
  fold s' in Hturns.
  change (chat_history (clear_chat s).2)
    with [AIMessage "Hi! I'm DeepSeek. How can I help you code today? 💻"] in Hturns.
  rewrite Hturns. split; [|done].
  cbn [app length]. rewrite length_concat_exchanges by done. lia.
Qed.

Lemma conversation_restarts_after_clear_chat_witness :
  let s := (@chat (Simulated.answering "ok") "before" "deepseek-r1:1.5b" 0
              Simulated.session).2 in
  let s' := @submit_events (Simulated.answering "ok")
              [("after", "deepseek-r1:1.5b", 0)] (clear_chat s).2 in
  length (chat_history s') = 1 + 2 * 1
  ∧ head (chat_history s')
    = Some (AIMessage "Hi! I'm DeepSeek. How can I help you code today? 💻").
Proof.
  apply (@conversation_restarts_after_clear_chat (Simulated.answering "ok")
           [("after", "deepseek-r1:1.5b", 0)]).
  repeat constructor; discriminate.
Defined.

(** ** The handlers and their bindings *)

(** X18. Of the three bindings of [create_demo], only the one of
    [stop_generation] gets as many values as it lists outputs: whatever the
    message and the state, [chat] on a live history list returns one value
    more than its binding lists outputs (three for two), and so does
    [clear_chat] (two for one); and [history_state] is an output of no
    binding. *)
Theorem handlers_return_one_value_too_many
    `{Runnable ChatOllama} (message model_choice : string) (history : loc)
    (h : list (string * string)) (s : State) :
  heap s !! history = Some h →
  Forall (λ binding,
            ∃ v, (run_method (fn binding) message model_choice history s).1 = Ok v
               ∧ returned_count v
                 = match fn binding with
                   | method_stop_generation => length (outputs binding)
                   | _ => S (length (outputs binding))
                   end
               ∧ history_state ∉ outputs binding)
         create_demo_bindings.
Proof.
  intros Hlive.
  unfold create_demo_bindings. repeat constructor; cbn [fn outputs run_method].
  - destruct (decide (message = "")) as [->|Hmessage].
    + eexists. split; [reflexivity|]. split; [reflexivity|].
      intros Hin. repeat (apply elem_of_cons in Hin as [Hin|Hin]; [discriminate|]).
      by apply elem_of_nil in Hin.
    + destruct (chat_effect message model_choice history s Hmessage)
        as (_ & _ & _ & _ & _ & _ & Hvalue).
      rewrite Hlive in Hvalue. eexists. split; [exact Hvalue|].
      split; [reflexivity|].
      intros Hin. repeat (apply elem_of_cons in Hin as [Hin|Hin]; [discriminate|]).
      by apply elem_of_nil in Hin.
  - eexists. split; [reflexivity|]. split; [reflexivity|]. apply not_elem_of_nil.
  - eexists. split; [reflexivity|]. split; [reflexivity|].
    intros Hin. repeat (apply elem_of_cons in Hin as [Hin|Hin]; [discriminate|]).
    by apply elem_of_nil in Hin.
Qed.

Lemma handlers_return_one_value_too_many_witness :
  Forall (λ binding,
            ∃ v, (@run_method (Simulated.answering "ok") (fn binding)
                    "hi" "deepseek-r1:1.5b" 0 Simulated.session).1 = Ok v
               ∧ returned_count v
                 = match fn binding with
                   | method_stop_generation => length (outputs binding)
                   | _ => S (length (outputs binding))
                   end
               ∧ history_state ∉ outputs binding)
         create_demo_bindings.
Proof.
  apply (@handlers_return_one_value_too_many (Simulated.answering "ok")
           "hi" "deepseek-r1:1.5b" 0 []).
  reflexivity.
Defined.
